(** * sonicord: the MKV recording sink and the application team object

    A shallow embedding of [discord/sinks/mkv.py] (class [MKVSink]) and of
    [discord/team.py] (class [Team], property [owner]).

    [MKVSink.format_audio] is effectful Python: it reads attributes of shared
    objects, spawns a child process, feeds and drains its pipes, replaces an
    attribute of the audio object it was handed and finally calls a method of
    that object.  Any of these steps may raise, and what was done before the
    exception stays done.  The embedding therefore runs in a state monad that
    keeps the store when an exception escapes. *)

From Stdlib Require Import ZArith DecimalString DecimalZ.
From Stdlib.Strings Require Import String Ascii Byte.
From stdpp Require Import base list gmap.

Local Open Scope string_scope.

(** ** Python exceptions *)

(** The exception classes [format_audio] raises, handles or lets through.
    [SubprocessError] stands for [subprocess.SubprocessError] and its
    subclasses, [class_name] being [exc.__class__.__name__] and [msg] being
    [str(exc)]; [OtherError] is an exception of any class that none of the
    [except] clauses of this file matches.  The second argument of
    [MKVSinkError] is [__cause__], set by [raise ... from ...]. *)
#[warnings="-register-all"]
Inductive PyExc : Type :=
| MKVSinkError (msg : string) (cause : option PyExc)
| AttributeError (msg : string)
| ValueError (msg : string)
| FileNotFoundError (msg : string)
| SubprocessError (class_name msg : string)
| OtherError (class_name msg : string).

(** ** Computations: a store threaded through, exceptions on the side *)

Definition Py (St A : Type) : Type := St -> St * (PyExc + A).

Definition ret {St A} (a : A) : Py St A := fun s => (s, inr a).

Definition bind {St A B} (c : Py St A) (k : A -> Py St B) : Py St B :=
  fun s =>
    match c s with
    | (s', inl e) => (s', inl e)
    | (s', inr a) => k a s'
    end.

Definition raise {St A} (e : PyExc) : Py St A := fun s => (s, inl e).

(** [try: c except Exception as e: h e]; a handler that matches no clause
    re-raises. *)
Definition try_except {St A} (c : Py St A) (h : PyExc -> Py St A) : Py St A :=
  fun s =>
    match c s with
    | (s', inl e) => h e s'
    | (s', inr a) => (s', inr a)
    end.

Definition gets {St A} (f : St -> A) : Py St A := fun s => (s, inr (f s)).

Definition modify {St} (f : St -> St) : Py St unit := fun s => (f s, inr tt).

Declare Scope py_scope.
Delimit Scope py_scope with py.
Notation "x <- c ;; k" := (bind c (fun x => k))
  (at level 100, c at next level, right associativity) : py_scope.
Notation "c ;;; k" := (bind c (fun _ => k))
  (at level 100, right associativity) : py_scope.

(** ** str *)

Definition ascii_lower (c : ascii) : ascii :=
  let n := N_of_ascii c in
  if ((65 <=? n) && (n <=? 90))%N then ascii_of_N (n + 32) else c.

(** [s.lower()] on ASCII text. *)
Fixpoint str_lower (s : string) : string :=
  match s with
  | EmptyString => EmptyString
  | String c rest => String (ascii_lower c) (str_lower rest)
  end.

(** [c in s] for a character [c]. *)
Fixpoint contains (c : ascii) (s : string) : bool :=
  match s with
  | EmptyString => false
  | String c' rest => Ascii.eqb c c' || contains c rest
  end.

(** [str(n)] for an [int]: decimal digits, a minus sign before a negative
    number, no sign otherwise, "0" for zero. *)
Definition str_int (n : Z) : string := NilZero.string_of_int (Z.to_int n).

(** ** io.BytesIO *)

Record BytesIO : Type := {
  buf : list byte;
  pos : nat;
  closed : bool
}.

(** [io.BytesIO(initial_bytes)]; [None] gives an empty stream. *)
Definition BytesIO_new (initial_bytes : option (list byte)) : BytesIO :=
  {| buf := default [] initial_bytes; pos := 0%nat; closed := false |}.

(** [f.read()]: everything from the cursor to the end, and the cursor moves
    there; on a closed stream [ValueError]. *)
Definition BytesIO_read (f : BytesIO) : PyExc + (list byte * BytesIO) :=
  if closed f then inl (ValueError "I/O operation on closed file.")
  else inr (drop (pos f) (buf f),
            {| buf := buf f;
               pos := Nat.max (pos f) (length (buf f));
               closed := false |}).

(** [f.seek(offset)], whence 0. *)
Definition BytesIO_seek (f : BytesIO) (offset : nat) : PyExc + BytesIO :=
  if closed f then inl (ValueError "I/O operation on closed file.")
  else inr {| buf := buf f; pos := offset; closed := false |}.

(** ** subprocess *)

(** What a standard stream of a child is connected to: [Inherited] when the
    corresponding argument of [Popen] is left out, a pipe when it is
    [subprocess.PIPE]. *)
Inductive Redirect : Type := Inherit | PIPE.

Inductive Stream : Type := Inherited | PipeOpen | PipeClosed.

Definition stream_of (r : Redirect) : Stream :=
  match r with Inherit => Inherited | PIPE => PipeOpen end.

Definition close_stream (s : Stream) : Stream :=
  match s with Inherited => Inherited | _ => PipeClosed end.

(** One call of [subprocess.Popen]. *)
Record PopenCall : Type := {
  call_args : list string;
  call_stdout : Redirect;
  call_stdin : Redirect
}.

(** What a started child does with the bytes it is fed: either the exchange
    itself raises, or the child writes [stdout] bytes and exits with a
    return code. *)
Definition ProcRun : Type := list byte -> PyExc + (list byte * Z).

(** A [Popen] object.  [proc_fed] is the [input] argument of the
    [communicate] call that returned on it, empty before: what the parent
    offered on the child's standard input, not what the child read of it.
    [proc_returncode] is [None] until the child has been waited for. *)
Record Process : Type := {
  proc_call : PopenCall;
  proc_run : ProcRun;
  proc_stdin : Stream;
  proc_stdout : Stream;
  proc_fed : list byte;
  proc_returncode : option Z
}.

Definition new_process (c : PopenCall) (run : ProcRun) : Process :=
  {| proc_call := c; proc_run := run;
     proc_stdin := stream_of (call_stdin c);
     proc_stdout := stream_of (call_stdout c);
     proc_fed := [];
     proc_returncode := None |}.

(** The state of a [Popen] object after [communicate] returned: the input
    was offered, both pipes were closed and the child was waited for. *)
Definition finished_process (p : Process) (input : list byte) (rc : Z) : Process :=
  {| proc_call := proc_call p; proc_run := proc_run p;
     proc_stdin := close_stream (proc_stdin p);
     proc_stdout := close_stream (proc_stdout p);
     proc_fed := input;
     proc_returncode := Some rc |}.

Definition stream_released (s : Stream) : bool :=
  match s with PipeOpen => false | _ => true end.

(** No pipe of the child is left open and the child has been reaped. *)
Definition released (p : Process) : bool :=
  stream_released (proc_stdin p) && stream_released (proc_stdout p)
  && bool_decide (is_Some (proc_returncode p)).

(** ** discord.sinks.mkv *)

Section sinks_mkv.

(** [Attrs]: whatever the audio object carries besides [file]; the class
    of the object is declared in [discord.sinks.core].  [FilterArgs]: the
    keyword dictionary accepted as [filters]. *)
Context {Attrs FilterArgs : Type}.

(** The object handed to [format_audio]. *)
Record Audio : Type := {
  file : BytesIO;
  attrs : Attrs
}.

Definition set_file (a : Audio) (f : BytesIO) : Audio :=
  {| file := f; attrs := attrs a |}.

(** The voice client a sink is attached to, as far as a sink reads it. *)
Record VoiceClient : Type := {
  recording : bool
}.

Record MKVSink : Type := {
  filters : FilterArgs;
  encoding : string;
  vc : option VoiceClient;
  audio_data : gmap Z Audio
}.

(** [from .core import Filters, default_filters]: the default dictionary,
    and [Filters.__init__(self, **filters)], of which only whether it
    raises matters here, since [__init__] assigns [encoding], [vc] and
    [audio_data] after it returned. *)
Context (default_filters : FilterArgs)
        (Filters_init : FilterArgs -> option PyExc).

(** [MKVSink.__init__(self, *, filters=None)]. *)
Definition MKVSink_init (filters : option FilterArgs) : PyExc + MKVSink :=
  let filters :=
    match filters with
    | None => default_filters
    | Some given => given
    end in
  match Filters_init filters with
  | Some e => inl e
  | None =>
      inr {| filters := filters;
             encoding := "mkv";
             vc := None;
             audio_data := ∅ |}
  end.

(** The operating system and the audio object's class, seen from
    [format_audio]: what [subprocess.Popen] does with a call, and what
    [audio.on_format(encoding)] does to the object. *)
Record Env : Type := {
  os_spawn : PopenCall -> PyExc + ProcRun;
  on_format : Audio -> string -> PyExc + Audio
}.

(** The store [format_audio] runs in: the sink ([self]), the audio object
    ([audio]), every [Popen] call made so far and every child started so
    far, oldest first.  A child is named by its index in [w_procs].
    [w_audio] is kept apart from the values in [audio_data (w_self)]: when
    the argument is one of the objects the sink holds there, an assignment
    to [audio.file] also shows through the sink, and that view is read off
    [w_audio], not off [w_self]. *)
Record World : Type := {
  w_self : MKVSink;
  w_audio : Audio;
  w_calls : list PopenCall;
  w_procs : list Process
}.

Definition with_audio (w : World) (a : Audio) : World :=
  {| w_self := w_self w; w_audio := a;
     w_calls := w_calls w; w_procs := w_procs w |}.

Definition with_calls (w : World) (cs : list PopenCall) : World :=
  {| w_self := w_self w; w_audio := w_audio w;
     w_calls := cs; w_procs := w_procs w |}.

Definition with_procs (w : World) (ps : list Process) : World :=
  {| w_self := w_self w; w_audio := w_audio w;
     w_calls := w_calls w; w_procs := ps |}.

(** [vc.recording], where [vc] may be [None]. *)
Definition getattr_recording (vc : option VoiceClient) : Py World bool :=
  match vc with
  | None => raise (AttributeError "'NoneType' object has no attribute 'recording'")
  | Some v => ret (recording v)
  end.

(** [subprocess.Popen(args, stdout=..., stdin=...)]. *)
Definition Popen (env : Env) (args : list string) (stdout stdin : Redirect)
  : Py World nat :=
  fun w =>
    let call := {| call_args := args; call_stdout := stdout; call_stdin := stdin |} in
    let w1 := with_calls w (w_calls w ++ [call]) in
    match os_spawn env call with
    | inl e => (w1, inl e)
    | inr run =>
        (with_procs w1 (w_procs w1 ++ [new_process call run]),
         inr (length (w_procs w1)))
    end.

(** [process.communicate(input)]: the pair of what was read from the
    child's standard output and standard error, each [None] when that
    stream is not a pipe.  [Popen] above never redirects standard error.
    When the exchange raises, the exception does not tell how far CPython
    got with the [Popen] object (input written, pipes closed, child waited
    for); the store keeps the object as it was, and nothing below is said
    about the object on that path. *)
Definition communicate (process : nat) (input : list byte)
  : Py World (option (list byte) * option (list byte)) :=
  fun w =>
    match w_procs w !! process with
    | None => (w, inl (OtherError "ReferenceError" "no such Popen object"))
    | Some p =>
        match proc_run p input with
        | inl e => (w, inl e)
        | inr (out, rc) =>
            (with_procs w (<[process := finished_process p input rc]> (w_procs w)),
             inr (match proc_stdout p with
                  | Inherited => None
                  | _ => Some out
                  end, None))
        end
    end.

(** [audio.file.read()]. *)
Definition audio_file_read : Py World (list byte) :=
  fun w =>
    match BytesIO_read (file (w_audio w)) with
    | inl e => (w, inl e)
    | inr (data, f) => (with_audio w (set_file (w_audio w) f), inr data)
    end.

(** [audio.on_format(encoding)]. *)
Definition audio_on_format (env : Env) (encoding : string) : Py World unit :=
  fun w =>
    match on_format env (w_audio w) encoding with
    | inl e => (w, inl e)
    | inr a => (with_audio w a, inr tt)
    end.

Definition lift {A} (r : PyExc + A) : Py World A := fun w => (w, r).

(** The argument list built by [format_audio]. *)
Definition ffmpeg_args : list string :=
  [ "ffmpeg";
    "-f"; "s16le";
    "-ar"; "48000";
    "-loglevel"; "error";
    "-ac"; "2";
    "-i"; "-";
    "-f"; "matroska";
    "pipe:1" ].

(** The one [Popen] call [format_audio] makes. *)
Definition ffmpeg_call : PopenCall :=
  {| call_args := ffmpeg_args; call_stdout := PIPE; call_stdin := PIPE |}.

(** The two [except] clauses around [Popen]. *)
Definition popen_handler {A} (exc : PyExc) : Py World A :=
  match exc with
  | FileNotFoundError _ =>
      raise (MKVSinkError "ffmpeg was not found." None)
  | SubprocessError class_name msg =>
      raise (MKVSinkError ("Popen failed: " ++ class_name ++ ": " ++ msg) (Some exc))
  | _ => raise exc
  end.

(** [MKVSink.format_audio(self, audio)]. *)
Definition format_audio (env : Env) : Py World unit :=
  (self <- gets w_self ;;
   is_recording <- getattr_recording (vc self) ;;
   if (is_recording : bool) then
     raise (MKVSinkError "Audio may only be formatted after recording is finished." None)
   else
     let args := ffmpeg_args in
     process <- try_except (Popen env args PIPE PIPE) popen_handler ;;
     data <- audio_file_read ;;
     out <- communicate process data ;;
     let out := BytesIO_new (fst out) in
     out <- lift (BytesIO_seek out 0) ;;
     modify (fun w => with_audio w (set_file (w_audio w) out)) ;;;
     self <- gets w_self ;;
     audio_on_format env (encoding self))%py.

(** The store after the child was started, fed [data], drained and waited
    for, and [out] was put in place of [audio.file]. *)
Definition converted (w : World) (run : ProcRun)
  (data out : list byte) (rc : Z) : World :=
  {| w_self := w_self w;
     w_audio := set_file (w_audio w) (BytesIO_new (Some out));
     w_calls := w_calls w ++ [ffmpeg_call];
     w_procs := w_procs w
                  ++ [finished_process (new_process ffmpeg_call run) data rc] |}.

(** What a caller can tell from the exception [format_audio] raised when
    the child could not be started. *)
Inductive SpawnFailure : Type := ToolNotFound | PopenFailed.

Definition classify (raised : PyExc) : option SpawnFailure :=
  match raised with
  | MKVSinkError msg None =>
      if (msg =? "ffmpeg was not found.")%string then Some ToolNotFound else None
  | MKVSinkError msg (Some (SubprocessError _ _)) =>
      if String.prefix "Popen failed: " msg then Some PopenFailed else None
  | _ => None
  end.

End sinks_mkv.

Arguments Audio : clear implicits.
Arguments MKVSink : clear implicits.
Arguments Env : clear implicits.
Arguments World : clear implicits.

(** ** discord.team *)

Module team.

(** [class TeamMember(BaseUser)]: the attributes of the class docstring.
    The [team] attribute points back at the owning [Team] and is left out,
    [membership_state] is kept as the value of the enumeration member. *)
Module TeamMember.
Record t : Type := {
  id : Z;
  name : string;
  discriminator : string;
  global_name : option string;
  avatar : option string;
  bot : bool;
  membership_state : Z;
  permissions : list string
}.
End TeamMember.

(** [class Team], without [_state]. *)
Record Team : Type := {
  id : Z;
  name : string;
  _icon : option string;
  owner_id : option Z;
  members : list TeamMember.t
}.

(** Modelled from the spec: [discord.utils.get], imported by [team.py]
    from [discord/utils.py], is not among the sources.  Called with one
    keyword [attr=value] it walks the iterable in order and gives back the
    first element whose attribute equals the value, [None] when there is
    none; it raises nothing and writes nothing.  The attribute is an [int],
    the value an [int] or [None], and no [int] equals [None]. *)
Definition utils_get {St A : Type}
  (iterable : list A) (attr : A -> Z) (value : option Z) : Py St (option A) :=
  ret (List.find (fun elem => bool_decide (Some (attr elem) = value)) iterable).

(** [Team.owner]. *)
Definition owner : Py Team (option TeamMember.t) :=
  (self <- gets (fun self : Team => self) ;;
   utils_get (members self) TeamMember.id (owner_id self))%py.

(** [Team.__repr__], for an instance of [Team] itself, whose
    [__class__.__name__] is "Team". *)
Definition __repr__ (self : Team) : string :=
  "<" ++ "Team" ++ " id=" ++ str_int (id self) ++ " name=" ++ name self ++ ">".

End team.

(** ** Concrete runs *)

(** Sample stores and environments on which the statements below are
    evaluated.  The audio object of the samples keeps, besides [file], the
    list of encodings it was told through [on_format], newest first. *)
Module samples.

Definition pcm : list byte := [x00; x01; xff; x7f; x10; x20; x30; x40].

Definition matroska : list byte := [x1a; x45; xdf; xa3; x42; x86].

Definition tell (a : Audio (list string)) (enc : string)
  : PyExc + Audio (list string) :=
  inr {| file := file a; attrs := enc :: attrs a |}.

(** A child that writes [out] and exits with [rc], whatever it is fed. *)
Definition child (out : list byte) (rc : Z) : ProcRun :=
  fun _ => inr (out, rc).

Definition env_child (out : list byte) (rc : Z) : Env (list string) :=
  {| os_spawn := fun _ => inr (child out rc); on_format := tell |}.

Definition env_spawn_raises (e : PyExc) : Env (list string) :=
  {| os_spawn := fun _ => inl e; on_format := tell |}.

Definition no_ffmpeg : PyExc :=
  FileNotFoundError "[Errno 2] No such file or directory: 'ffmpeg'".

Definition sink (v : option VoiceClient) : MKVSink (list string) unit :=
  {| filters := tt; encoding := "mkv"; vc := v; audio_data := ∅ |}.

Definition world (v : option VoiceClient) (f : BytesIO)
  : World (list string) unit :=
  {| w_self := sink v;
     w_audio := {| file := f; attrs := [] |};
     w_calls := [];
     w_procs := [] |}.

Definition stopped : World (list string) unit :=
  world (Some {| recording := false |}) (BytesIO_new (Some pcm)).

Definition still_recording : World (list string) unit :=
  world (Some {| recording := true |}) (BytesIO_new (Some pcm)).

Definition unattached : World (list string) unit :=
  world None (BytesIO_new (Some pcm)).

Definition stopped_closed_file : World (list string) unit :=
  world (Some {| recording := false |})
        {| buf := pcm; pos := 0%nat; closed := true |}.

Definition member (i : Z) (n : string) : team.TeamMember.t :=
{| team.TeamMember.id := i; team.TeamMember.name := n;
   team.TeamMember.discriminator := "0";
   team.TeamMember.global_name := None;
   team.TeamMember.avatar := None;
   team.TeamMember.bot := false;
   team.TeamMember.membership_state := 2;
   team.TeamMember.permissions := ["*"] |}.

Definition crew (owner : option Z) : team.Team :=
{| team.id := 1; team.name := "crew"; team._icon := None;
   team.owner_id := owner;
   team.members := [member 5 "ada"; member 7 "bob"; member 7 "eve"] |}.

(** A child the exchange with which raises. *)
Definition env_exchange_raises (e : PyExc) : Env (list string) :=
  {| os_spawn := fun _ => inr (fun _ => inl e); on_format := tell |}.

Definition io_error : PyExc := OtherError "OSError" "[Errno 5] Input/output error".



Definition duo (owner : option Z) : team.Team :=
{| team.id := 2; team.name := "duo"; team._icon := None;
   team.owner_id := owner;
   team.members := [member 5 "ada"; member 7 "bob"] |}.

End samples.

(** * Properties *)

Section sinks_mkv_facts.

Context {Attrs FilterArgs : Type}.

Context (default_filters : FilterArgs)
        (Filters_init : FilterArgs -> option PyExc).

Implicit Types (env : Env Attrs) (w : World Attrs FilterArgs).

(** [format_audio], path by path. *)
Lemma format_audio_paths env w :
  format_audio env w =
  match vc (w_self w) with
  | None =>
      (w, inl (AttributeError "'NoneType' object has no attribute 'recording'"))
  | Some v =>
      if recording v then
        (w, inl (MKVSinkError
                   "Audio may only be formatted after recording is finished."
                   None))
      else
        let w1 := with_calls w (w_calls w ++ [ffmpeg_call]) in
        match os_spawn env ffmpeg_call with
        | inl e => popen_handler e w1
        | inr run =>
            let w2 := with_procs w1 (w_procs w ++ [new_process ffmpeg_call run]) in
            match BytesIO_read (file (w_audio w)) with
            | inl e => (w2, inl e)
            | inr (data, f) =>
                match run data with
                | inl e => (with_audio w2 (set_file (w_audio w) f), inl e)
                | inr (out, rc) =>
                    audio_on_format env (encoding (w_self w))
                      (converted w run data out rc)
                end
            end
        end
  end.
Proof.
  unfold format_audio, bind, gets, getattr_recording; simpl.
  destruct (vc (w_self w)) as [v|]; [|reflexivity].
  unfold ret. destruct (recording v); [reflexivity|].
  unfold try_except, Popen; simpl.
  change {| call_args := ffmpeg_args; call_stdout := PIPE; call_stdin := PIPE |}
    with ffmpeg_call.
  destruct (os_spawn env ffmpeg_call) as [e|run]; [destruct e; reflexivity|].
  unfold audio_file_read; simpl.
  destruct (BytesIO_read (file (w_audio w))) as [e|[data f]]; [reflexivity|].
  unfold communicate; simpl.
  rewrite list_lookup_middle by reflexivity; simpl.
  destruct (run data) as [e|[out rc]]; [reflexivity|].
  unfold lift, modify, with_procs, with_audio, converted; simpl.
  rewrite insert_app_r_alt by lia.
  rewrite Nat.sub_diag. reflexivity.
Qed.

Lemma prefix_empty (s : string) : String.prefix "" s = true.
Proof. destruct s; reflexivity. Qed.

(** [__init__] leaves a sink with the tag "mkv" and no voice client. *)
Lemma MKVSink_init_attributes (given : option FilterArgs)
  (s : MKVSink Attrs FilterArgs) :
  MKVSink_init default_filters Filters_init given = inr s ->
  encoding s = "mkv" /\ vc s = None /\ audio_data s = ∅.
Proof.
  unfold MKVSink_init.
  destruct (Filters_init _); intros H; inversion H; subst; auto.
Qed.

(** C2. While the voice client of the sink is recording, [format_audio]
    raises the sink error whose message is "Audio may only be formatted
    after recording is finished." (the wording of the specification up to
    the capital letter and the full stop), a message that differs from
    the other two messages the function raises; the store is the one it
    started from, so no [Popen] call was made, no child exists and the
    audio object is as it was. *)
Theorem format_audio_while_recording env w (v : VoiceClient) :
  vc (w_self w) = Some v ->
  recording v = true ->
  exists msg,
    format_audio env w = (w, inl (MKVSinkError msg None))
    /\ msg = "Audio may only be formatted after recording is finished."
    /\ String.prefix "audio may only be formatted after recording is finished"
         (str_lower msg) = true
    /\ msg <> "ffmpeg was not found."
    /\ (forall class_name m, msg <> "Popen failed: " ++ class_name ++ ": " ++ m)
    /\ w_calls (format_audio env w).1 = w_calls w
    /\ w_procs (format_audio env w).1 = w_procs w
    /\ w_audio (format_audio env w).1 = w_audio w.
Proof.
  intros Hvc Hrec.
  rewrite format_audio_paths, Hvc, Hrec.
  eexists; split; [reflexivity|].
  repeat split; try reflexivity; discriminate.
Qed.

(** C4. With recording finished and [Popen] raising [FileNotFoundError],
    [format_audio] raises the sink error "ffmpeg was not found." (with no
    cause attached); the sink and its voice client, the audio object with
    its file, and the set of children are unchanged. *)
Theorem format_audio_tool_not_found env w (v : VoiceClient) (m : string) :
  vc (w_self w) = Some v ->
  recording v = false ->
  os_spawn env ffmpeg_call = inl (FileNotFoundError m) ->
  exists w',
    format_audio env w = (w', inl (MKVSinkError "ffmpeg was not found." None))
    /\ w_self w' = w_self w
    /\ w_audio w' = w_audio w
    /\ w_procs w' = w_procs w
    /\ w_calls w' = (w_calls w ++ [ffmpeg_call])%list.
Proof.
  intros Hvc Hrec Hspawn.
  rewrite format_audio_paths, Hvc, Hrec; simpl.
  rewrite Hspawn; simpl.
  eexists; split; [reflexivity|]; auto.
Qed.

(** C6. When [format_audio] returns normally, the child was started, was
    fed what [audio.file.read()] gave and wrote [out]; the audio object
    handed to [on_format] has as its file a fresh open stream holding
    exactly [out] with the cursor at 0, [on_format] was called on it with
    the sink's [encoding] and the object it left is the final one (so the
    final file is that stream whenever [on_format] does not replace the
    file); and [encoding] is "mkv" for every sink built by [__init__]. *)
Theorem format_audio_success env w (w' : World Attrs FilterArgs) :
  format_audio env w = (w', inr tt) ->
  exists (run : ProcRun) (data : list byte) (f : BytesIO) (out : list byte) (rc : Z),
    os_spawn env ffmpeg_call = inr run
    /\ BytesIO_read (file (w_audio w)) = inr (data, f)
    /\ run data = inr (out, rc)
    /\ (let handed :=
          set_file (w_audio w) {| buf := out; pos := 0; closed := false |} in
        on_format env handed (encoding (w_self w)) = inr (w_audio w')
        /\ ((forall a enc a', on_format env a enc = inr a' -> file a' = file a) ->
            file (w_audio w') = {| buf := out; pos := 0; closed := false |}))
    /\ (forall given (s : MKVSink Attrs FilterArgs),
          MKVSink_init default_filters Filters_init given = inr s ->
          encoding s = "mkv").
Proof.
  rewrite format_audio_paths.
  destruct (vc (w_self w)) as [v|]; [|discriminate].
  destruct (recording v); [discriminate|]; simpl.
  destruct (os_spawn env ffmpeg_call) as [e|run].
  { destruct e; discriminate. }
  destruct (BytesIO_read (file (w_audio w))) as [e|[data f]]; [discriminate|].
  destruct (run data) as [e|[out rc]] eqn:Hrun; [discriminate|].
  unfold audio_on_format; simpl.
  destruct (on_format env _ _) as [e|a] eqn:Hfmt; [discriminate|].
  intros H; inversion H; subst; clear H; simpl.
  exists run, data, f, out, rc.
  repeat split; auto.
  - intros Hkeep. apply Hkeep in Hfmt. exact Hfmt.
  - intros given s Hs.
    apply (MKVSink_init_attributes given s Hs).
Qed.

(** C7. Every [Popen] call [format_audio] makes, and it makes one as soon
    as the guard is passed and none otherwise, has the argument list
    ffmpeg -f s16le -ar 48000 -loglevel error -ac 2 -i - -f matroska
    pipe:1, with standard input and standard output as pipes. *)
Theorem format_audio_launch_arguments env w :
  exists new : list PopenCall,
    w_calls (format_audio env w).1 = (w_calls w ++ new)%list
    /\ Forall (fun c =>
                 call_args c =
                   (["ffmpeg"] ++ ["-f"; "s16le"] ++ ["-ar"; "48000"]
                      ++ ["-loglevel"; "error"] ++ ["-ac"; "2"]
                      ++ ["-i"; "-"] ++ ["-f"; "matroska"] ++ ["pipe:1"])%list
                 /\ call_stdin c = PIPE
                 /\ call_stdout c = PIPE) new
    /\ (length new <= 1)%nat
    /\ (forall v : VoiceClient,
          vc (w_self w) = Some v -> recording v = false -> length new = 1%nat).
Proof.
  rewrite format_audio_paths.
  destruct (vc (w_self w)) as [v|] eqn:Hvc.
  2:{ exists []. rewrite app_nil_r. repeat split; auto; discriminate. }
  destruct (recording v) eqn:Hrec.
  { exists []. rewrite app_nil_r. repeat split; auto.
    intros v' Hv' Hr'. congruence. }
  exists [ffmpeg_call].
  split.
  { simpl.
    destruct (os_spawn env ffmpeg_call) as [e|run]; [destruct e; reflexivity|].
    destruct (BytesIO_read (file (w_audio w))) as [e|[data f]]; [reflexivity|].
    destruct (run data) as [e|[out rc]]; [reflexivity|].
    unfold audio_on_format; simpl.
    destruct (on_format env _ _); reflexivity. }
  repeat split; auto; repeat constructor.
Qed.

(** C9. On a sink that has no voice client, which is how [__init__] leaves
    it, [format_audio] raises [AttributeError] for the attribute
    [recording] of [None], which is not the sink error; the store is the
    one it started from, so no child was started and the audio object is
    as it was. *)
Theorem format_audio_unattached env w :
  vc (w_self w) = None ->
  exists e,
    format_audio env w = (w, inl e)
    /\ e = AttributeError "'NoneType' object has no attribute 'recording'"
    /\ (forall msg cause, e <> MKVSinkError msg cause)
    /\ (forall given (s : MKVSink Attrs FilterArgs),
          MKVSink_init default_filters Filters_init given = inr s ->
          vc s = None).
Proof.
  intros Hvc. rewrite format_audio_paths, Hvc.
  eexists; split; [reflexivity|].
  repeat split; try discriminate.
  intros given s Hs. apply (MKVSink_init_attributes given s Hs).
Qed.

(** How far the missing check of the exchange reaches.  [format_audio]
    looks neither at the return code of the child nor at what it wrote.  What is raised before the
    exchange with the child (recording not finished, or the child could
    not be started) leaves the audio object as it was.  Once the child
    was started and [communicate] returned [out] with return code [rc],
    whatever [rc] and [out] are, [out] is put in place of [audio.file]
    with the cursor at 0 and [on_format] is called; an exception that
    escapes after that is one [on_format] raised. *)
Theorem format_audio_ignores_exit_status env w (v : VoiceClient) :
  vc (w_self w) = Some v ->
  ((recording v = true \/ (exists e, os_spawn env ffmpeg_call = inl e)) ->
     (exists raised, (format_audio env w).2 = inl raised)
     /\ w_audio (format_audio env w).1 = w_audio w)
  /\ (forall (run : ProcRun) data f out (rc : Z),
        recording v = false ->
        os_spawn env ffmpeg_call = inr run ->
        BytesIO_read (file (w_audio w)) = inr (data, f) ->
        run data = inr (out, rc) ->
        format_audio env w
          = audio_on_format env (encoding (w_self w)) (converted w run data out rc)
        /\ file (w_audio (converted w run data out rc))
           = {| buf := out; pos := 0; closed := false |}
        /\ (forall raised,
              (format_audio env w).2 = inl raised ->
              on_format env (w_audio (converted w run data out rc))
                (encoding (w_self w)) = inl raised)).
Proof.
  intros Hvc. split.
  - intros Hearly. rewrite format_audio_paths, Hvc.
    destruct (recording v) eqn:Hrec; [simpl; eauto|].
    destruct Hearly as [Hr|[e He]]; [discriminate|].
    simpl. rewrite He. destruct e; simpl; eauto.
  - intros run data f out rc Hrec Hspawn Hread Hrun.
    rewrite format_audio_paths, Hvc, Hrec; simpl.
    rewrite Hspawn, Hread, Hrun.
    repeat split.
    unfold audio_on_format.
    destruct (on_format env _ _); simpl; congruence.
Qed.

(** The failures at the start of the child.  When the child cannot be
    started, the exception of [Popen] decides what [format_audio] raises:
    [FileNotFoundError] gives the sink error "ffmpeg was not found."
    without cause, [SubprocessError] gives the sink error "Popen failed:
    <class>: <text>" with the original exception as cause, and any other
    exception passes through unchanged.  The first two are told apart by
    [classify], and neither is mistaken for the guard's error. *)
Theorem spawn_failures_distinguishable env w (v : VoiceClient) (e : PyExc) :
  vc (w_self w) = Some v ->
  recording v = false ->
  os_spawn env ffmpeg_call = inl e ->
  exists raised,
    (format_audio env w).2 = inl raised
    /\ match e with
       | FileNotFoundError _ =>
           raised = MKVSinkError "ffmpeg was not found." None
           /\ classify raised = Some ToolNotFound
       | SubprocessError class_name msg =>
           raised = MKVSinkError ("Popen failed: " ++ class_name ++ ": " ++ msg) (Some e)
           /\ classify raised = Some PopenFailed
       | _ => raised = e
       end
    /\ classify (MKVSinkError
                   "Audio may only be formatted after recording is finished."
                   None) = None
    /\ Some ToolNotFound <> Some PopenFailed.
Proof.
  intros Hvc Hrec Hspawn.
  rewrite format_audio_paths, Hvc, Hrec; simpl.
  rewrite Hspawn.
  destruct e; simpl; eexists; (split; [reflexivity|]);
    repeat split; try reflexivity; try discriminate.
  unfold classify; simpl. rewrite prefix_empty. reflexivity.
Qed.

(** C8, as the code has it.  With recording finished: when [Popen] raises
    there is no child to release; when the child was started and
    [communicate] returned, then on the way out of [format_audio], whether
    [on_format] returns or raises, both pipes of the child are closed and
    the child has been waited for. *)
Theorem format_audio_releases_after_communicate env w (v : VoiceClient) :
  vc (w_self w) = Some v ->
  recording v = false ->
  (forall e, os_spawn env ffmpeg_call = inl e ->
     w_procs (format_audio env w).1 = w_procs w)
  /\ (forall (run : ProcRun) data f out (rc : Z),
        os_spawn env ffmpeg_call = inr run ->
        BytesIO_read (file (w_audio w)) = inr (data, f) ->
        run data = inr (out, rc) ->
        exists p,
          w_procs (format_audio env w).1 = (w_procs w ++ [p])%list
          /\ released p = true
          /\ proc_stdin p = PipeClosed
          /\ proc_stdout p = PipeClosed
          /\ proc_returncode p = Some rc
          /\ proc_fed p = data).
Proof.
  intros Hvc Hrec. rewrite format_audio_paths, Hvc, Hrec; simpl. split.
  - intros e He. rewrite He. destruct e; reflexivity.
  - intros run data f out rc Hspawn Hread Hrun.
    rewrite Hspawn, Hread, Hrun.
    exists (finished_process (new_process ffmpeg_call run) data rc).
    split; [|repeat split].
    unfold audio_on_format.
    destruct (on_format env _ _); reflexivity.
Qed.

End sinks_mkv_facts.

Section team_facts.

Import team.

(** A successful linear search splits the list at the first hit. *)
Lemma find_first_hit {A : Type} (test : A -> bool) (l : list A) (x : A) :
  List.find test l = Some x ->
  exists before after,
    l = (before ++ x :: after)%list
    /\ test x = true
    /\ (forall y, In y before -> test y = false).
Proof.
  induction l as [|a l IH]; simpl; [discriminate|].
  destruct (test a) eqn:Ha.
  - intros [= ->]. exists [], l. repeat split; auto. intros y [].
  - intros Hfind. destruct (IH Hfind) as (before & after & -> & Hx & Hbefore).
    exists (a :: before), after. repeat split; auto.
    intros y [<-|Hy]; auto.
Qed.

Lemma find_no_hit {A : Type} (test : A -> bool) (l : list A) :
  List.find test l = None -> forall y, In y l -> test y = false.
Proof.
  induction l as [|a l IH]; simpl; [intros _ y []|].
  destruct (test a) eqn:Ha; [discriminate|].
  intros Hfind y [<-|Hy]; auto.
Qed.

(** C10. [Team.owner] always returns, raising nothing and leaving the team
    as it was.  What it returns is a member of [members] whose [id] is
    [owner_id], the first such in the list; it is [None] exactly when no
    member has that [id], which is the case when [owner_id] is [None] and
    when the owner is not among the members. *)
Theorem team_owner_spec (t : Team) :
  exists result : option TeamMember.t,
    owner t = (t, inr result)
    /\ match result with
       | Some m =>
           In m (members t)
           /\ owner_id t = Some (TeamMember.id m)
           /\ (exists before after,
                 members t = (before ++ m :: after)%list
                 /\ forall x, In x before -> owner_id t <> Some (TeamMember.id x))
       | None =>
           forall m, In m (members t) -> owner_id t <> Some (TeamMember.id m)
       end
    /\ (owner_id t = None -> result = None)
    /\ ((forall m, In m (members t) -> owner_id t <> Some (TeamMember.id m)) ->
        result = None).
Proof.
  unfold owner, utils_get, bind, gets, ret; simpl.
  eexists; split; [reflexivity|].
  destruct (List.find _ (members t)) as [m|] eqn:Hfind.
  - destruct (find_first_hit _ _ _ Hfind) as (before & after & Hsplit & Hm & Hbefore).
    apply bool_decide_eq_true in Hm.
    assert (Hin : In m (members t)).
    { rewrite Hsplit. apply in_or_app. right. left. reflexivity. }
    repeat split; auto.
    + exists before, after. split; [exact Hsplit|].
      intros x Hx Heq. apply Hbefore in Hx.
      apply bool_decide_eq_false in Hx. auto.
    + intros Hnone. rewrite Hnone in Hm. discriminate.
    + intros Hnobody. exfalso. apply (Hnobody m Hin). auto.
  - repeat split; auto.
    intros m Hin Heq.
    pose proof (find_no_hit _ _ Hfind m Hin) as Hm.
    apply bool_decide_eq_false in Hm. auto.
Qed.

End team_facts.

(** ** [Team.__repr__] and [Team.owner], further *)

Section team_further.

Import team.

Lemma digits_contain_no_space (d : Decimal.uint) :
  contains " " (NilEmpty.string_of_uint d) = false.
Proof. induction d; simpl; auto. Qed.

Lemma str_int_contains_no_space (n : Z) : contains " " (str_int n) = false.
Proof.
  unfold str_int, NilZero.string_of_int, NilZero.string_of_uint.
  destruct (Z.to_int n) as [d|d]; destruct d; simpl;
    auto using digits_contain_no_space.
Qed.

Lemma str_int_inj (a b : Z) : str_int a = str_int b -> a = b.
Proof.
  unfold str_int. intros H.
  apply DecimalZ.to_int_inj.
  assert (Hparse : forall n,
             NilZero.int_of_string (NilZero.string_of_int (Z.to_int n))
             = Some (Z.to_int n)).
  { intros n. apply NilZero.isi; destruct n; simpl; try discriminate;
      intros [= Hnil]; exact (DecimalPos.Unsigned.to_uint_nonnil _ Hnil). }
  pose proof (Hparse a) as Ha. rewrite H, Hparse in Ha.
  congruence.
Qed.

(** Two texts that agree up to and including their first space. *)
Lemma split_at_first_space (s1 s2 r1 r2 : string) :
  contains " " s1 = false ->
  contains " " s2 = false ->
  s1 ++ String " " r1 = s2 ++ String " " r2 ->
  s1 = s2 /\ r1 = r2.
Proof.
  revert s2. induction s1 as [|c s1 IH]; intros [|c2 s2]; simpl.
  - intros _ _ [= ->]. auto.
  - intros _ Hs2 [= <- _]. discriminate.
  - intros Hs1 _ [= -> _]. discriminate.
  - intros Hs1 Hs2 [= -> Hrest].
    apply orb_false_elim in Hs1 as [_ Hs1].
    apply orb_false_elim in Hs2 as [_ Hs2].
    destruct (IH s2 Hs1 Hs2 Hrest) as [-> ->]. auto.
Qed.

Lemma append_closing_inj (s1 s2 : string) : s1 ++ ">" = s2 ++ ">" -> s1 = s2.
Proof.
  revert s2. induction s1 as [|c s1 IH]; intros [|c2 s2]; simpl.
  - reflexivity.
  - intros [= <- H]. destruct s2; discriminate.
  - intros [= -> H]. destruct s1; discriminate.
  - intros [= -> H]. f_equal. apply IH. exact H.
Qed.

(** X9. The text [Team.__repr__] gives determines the team's [id] and
    [name]: two teams with the same text have the same [id] and the same
    [name], whatever characters the names contain. *)
Theorem Team_repr_determines_id_and_name (t1 t2 : Team) :
  __repr__ t1 = __repr__ t2 ->
  id t1 = id t2 /\ name t1 = name t2.
Proof.
  unfold __repr__; simpl. intros [= H].
  apply split_at_first_space in H as [Hid Hname];
    try apply str_int_contains_no_space.
  split.
  - apply str_int_inj. exact Hid.
  - simpl in Hname. injection Hname as Hname.
    apply append_closing_inj. exact Hname.
Qed.

(** X10. In a team whose members have pairwise different [id]s, [owner]
    returns a member exactly when that member is in [members] and its [id]
    is [owner_id] ([utils.get] being taken as the in-order search it is
    modelled as). *)
Theorem team_owner_unique_ids (t : Team) (m : TeamMember.t) :
  NoDup (map TeamMember.id (members t)) ->
  ((owner t).2 = inr (Some m)
   <-> In m (members t) /\ owner_id t = Some (TeamMember.id m)).
Proof.
  unfold owner, utils_get, bind, gets, ret; simpl.
  generalize (owner_id t) as value. generalize (members t) as l.
  intros l value Hnodup. split.
  - intros [= Hfind].
    destruct (find_first_hit _ _ _ Hfind) as (before & after & -> & Hm & _).
    apply bool_decide_eq_true in Hm.
    split; [apply in_or_app; right; left; reflexivity | auto].
  - intros [Hin Hid]. f_equal. subst value.
    induction l as [|a l IH]; simpl in *; [contradiction|].
    apply NoDup_cons in Hnodup as [Hfresh Hnodup].
    destruct Hin as [->|Hin].
    + rewrite bool_decide_eq_true_2; reflexivity.
    + destruct (bool_decide (Some (TeamMember.id a) = Some (TeamMember.id m))) eqn:Ha.
      * apply bool_decide_eq_true in Ha. injection Ha as Ha.
        exfalso. apply Hfresh. rewrite Ha.
        apply list_elem_of_In. apply in_map. exact Hin.
      * apply IH; assumption.
Qed.

End team_further.

(** ** Further paths of [format_audio] *)

Section format_audio_further.

Context {Attrs FilterArgs : Type}.

Implicit Types (env : Env Attrs) (w : World Attrs FilterArgs).

(** Reading an open stream. *)
Lemma BytesIO_read_open (f : BytesIO) :
  closed f = false ->
  BytesIO_read f
  = inr (drop (pos f) (buf f),
         {| buf := buf f; pos := Nat.max (pos f) (length (buf f)); closed := false |}).
Proof. unfold BytesIO_read. intros ->. reflexivity. Qed.


(** X2. When the guard is passed, the child is started, the input stream
    is open and the exchange returns, the [input] argument [communicate]
    was called with is what lies between the cursor of [audio.file] and
    its end: the whole buffer when the cursor is at 0, the empty bytes when
    the buffer was already read to its end. *)
Theorem format_audio_exchange_input env w (v : VoiceClient)
  (run : ProcRun) (out : list byte) (rc : Z) :
  vc (w_self w) = Some v ->
  recording v = false ->
  closed (file (w_audio w)) = false ->
  os_spawn env ffmpeg_call = inr run ->
  run (drop (pos (file (w_audio w))) (buf (file (w_audio w)))) = inr (out, rc) ->
  exists p,
    w_procs (format_audio env w).1 = (w_procs w ++ [p])%list
    /\ proc_fed p = drop (pos (file (w_audio w))) (buf (file (w_audio w)))
    /\ (pos (file (w_audio w)) = 0%nat -> proc_fed p = buf (file (w_audio w)))
    /\ ((length (buf (file (w_audio w))) <= pos (file (w_audio w)))%nat ->
        proc_fed p = []).
Proof.
  intros Hvc Hrec Hopen Hspawn Hrun.
  rewrite format_audio_paths, Hvc, Hrec; simpl.
  rewrite Hspawn, (BytesIO_read_open _ Hopen), Hrun.
  eexists. split.
  { unfold audio_on_format. destruct (on_format env _ _); reflexivity. }
  simpl. split; [reflexivity|]. split.
  - intros ->. reflexivity.
  - intros Hend. apply drop_ge. exact Hend.
Qed.

(** X3. When the exchange with the child raises, the exception escapes as
    it is and the input has been used up: [audio.file] still holds the
    same bytes but its cursor stands at the end, so that reading it again
    gives nothing. *)
Theorem format_audio_exchange_failure_drains_input env w (v : VoiceClient)
  (run : ProcRun) (e : PyExc) :
  vc (w_self w) = Some v ->
  recording v = false ->
  closed (file (w_audio w)) = false ->
  os_spawn env ffmpeg_call = inr run ->
  run (drop (pos (file (w_audio w))) (buf (file (w_audio w)))) = inl e ->
  (format_audio env w).2 = inl e
  /\ buf (file (w_audio (format_audio env w).1)) = buf (file (w_audio w))
  /\ closed (file (w_audio (format_audio env w).1)) = false
  /\ (length (buf (file (w_audio w)))
      <= pos (file (w_audio (format_audio env w).1)))%nat
  /\ (exists f, BytesIO_read (file (w_audio (format_audio env w).1)) = inr ([], f)).
Proof.
  intros Hvc Hrec Hopen Hspawn Hrun.
  rewrite format_audio_paths, Hvc, Hrec; simpl.
  rewrite Hspawn, (BytesIO_read_open _ Hopen), Hrun; simpl.
  split; [reflexivity|]. split; [reflexivity|]. split; [reflexivity|].
  split; [apply Nat.le_max_r|].
  unfold BytesIO_read; simpl. eexists. f_equal. f_equal.
  apply drop_ge. apply Nat.le_max_r.
Qed.




(** X7. Where the sink error comes from.  Provided [Popen], the exchange
    and [on_format] do not themselves raise it, [format_audio] raises
    [MKVSinkError] in three situations only: recording is not finished,
    [Popen] raised [FileNotFoundError], or [Popen] raised a
    [SubprocessError]; and in each of them no child exists and the audio
    object is as it was. *)
Theorem format_audio_sink_error_origin env w (msg : string) (cause : option PyExc) :
  (forall e, os_spawn env ffmpeg_call = inl e ->
     forall m c, e <> MKVSinkError m c) ->
  (forall (run : ProcRun) data e,
     os_spawn env ffmpeg_call = inr run -> run data = inl e ->
     forall m c, e <> MKVSinkError m c) ->
  (forall a enc e, on_format env a enc = inl e ->
     forall m c, e <> MKVSinkError m c) ->
  (format_audio env w).2 = inl (MKVSinkError msg cause) ->
  (exists v : VoiceClient,
     vc (w_self w) = Some v
     /\ ((recording v = true
          /\ msg = "Audio may only be formatted after recording is finished."
          /\ cause = None)
         \/ (recording v = false
             /\ (exists m, os_spawn env ffmpeg_call = inl (FileNotFoundError m))
             /\ msg = "ffmpeg was not found."
             /\ cause = None)
         \/ (recording v = false
             /\ (exists class_name m,
                   os_spawn env ffmpeg_call = inl (SubprocessError class_name m)
                   /\ msg = "Popen failed: " ++ class_name ++ ": " ++ m
                   /\ cause = Some (SubprocessError class_name m)))))
  /\ w_audio (format_audio env w).1 = w_audio w
  /\ w_procs (format_audio env w).1 = w_procs w.
Proof.
  intros Hspawn_clean Hrun_clean Hfmt_clean.
  rewrite format_audio_paths.
  destruct (vc (w_self w)) as [v|]; [|discriminate].
  destruct (recording v) eqn:Hrec.
  { simpl. intros [= <- <-]. split; [|split; reflexivity].
    exists v. split; [reflexivity|]. left. repeat split; auto. }
  simpl.
  destruct (os_spawn env ffmpeg_call) as [e|run] eqn:Hspawn.
  { pose proof (Hspawn_clean e eq_refl) as Hclean.
    destruct e; simpl; intros [= <- <-];
      try (exfalso; eapply Hclean; reflexivity).
    - split; [|split; reflexivity].
      exists v. split; [reflexivity|]. right. left. repeat split; eauto.
    - split; [|split; reflexivity].
      exists v. split; [reflexivity|]. right. right. split; [assumption|]. eauto. }
  unfold BytesIO_read.
  destruct (closed (file (w_audio w))); [discriminate|].
  destruct (run _) as [e|[out rc]] eqn:Hrun.
  { simpl. intros [= ->].
    exfalso. eapply (Hrun_clean run _ _ eq_refl Hrun). reflexivity. }
  unfold audio_on_format; simpl.
  destruct (on_format env _ _) as [e|a] eqn:Hfmt; [|discriminate].
  simpl. intros [= ->].
  exfalso. eapply (Hfmt_clean _ _ _ Hfmt). reflexivity.
Qed.

(** X8. [format_audio] returns normally exactly when the sink has a voice
    client that is not recording, [Popen] starts the child, the input
    stream is open, the exchange returns and [on_format] returns. *)
Theorem format_audio_returns_iff env w :
  (format_audio env w).2 = inr tt
  <-> exists (v : VoiceClient) (run : ProcRun) (out : list byte) (rc : Z)
        (a : Audio Attrs),
        vc (w_self w) = Some v
        /\ recording v = false
        /\ os_spawn env ffmpeg_call = inr run
        /\ closed (file (w_audio w)) = false
        /\ run (drop (pos (file (w_audio w))) (buf (file (w_audio w)))) = inr (out, rc)
        /\ on_format env
             (set_file (w_audio w) {| buf := out; pos := 0; closed := false |})
             (encoding (w_self w)) = inr a.
Proof.
  rewrite format_audio_paths. split.
  - destruct (vc (w_self w)) as [v|]; [|discriminate].
    destruct (recording v) eqn:Hrec; [discriminate|]; simpl.
    destruct (os_spawn env ffmpeg_call) as [e|run].
    { destruct e; discriminate. }
    unfold BytesIO_read.
    destruct (closed (file (w_audio w))); [discriminate|].
    destruct (run _) as [e|[out rc]] eqn:Hrun; [discriminate|].
    unfold audio_on_format; simpl.
    destruct (on_format env _ _) as [e|a] eqn:Hfmt; [discriminate|].
    intros _. exists v, run, out, rc, a. repeat split; auto.
  - intros (v & run & out & rc & a & Hvc & Hrec & Hspawn & Hopen & Hrun & Hfmt).
    rewrite Hvc, Hrec; simpl.
    rewrite Hspawn, (BytesIO_read_open _ Hopen), Hrun.
    unfold audio_on_format; simpl. unfold BytesIO_new; simpl.
    rewrite Hfmt. reflexivity.
Qed.

End format_audio_further.

(** ** The statements above on the sample runs *)

Import samples.

(** A whole conversion: one call, the child fed the eight bytes of the
    buffer and released, the audio object holding the child's output from
    offset 0 and told "mkv". *)
Example format_audio_run :
  format_audio (env_child matroska 0) stopped
  = ({| w_self := sink (Some {| recording := false |});
        w_audio := {| file := {| buf := matroska; pos := 0; closed := false |};
                      attrs := ["mkv"] |};
        w_calls := [ffmpeg_call];
        w_procs := [ {| proc_call := ffmpeg_call;
                        proc_run := child matroska 0;
                        proc_stdin := PipeClosed;
                        proc_stdout := PipeClosed;
                        proc_fed := pcm;
                        proc_returncode := Some 0%Z |} ] |},
     inr tt).
Proof. reflexivity. Qed.

(** [read()] starts at the cursor: a buffer already read to its end feeds
    the child nothing. *)
Example format_audio_drained_buffer :
  proc_fed <$> w_procs (format_audio (env_child matroska 0)
                          (world (Some {| recording := false |})
                             {| buf := pcm; pos := 8; closed := false |})).1
  = [[]].
Proof. reflexivity. Qed.

Example repr_runs :
  team.__repr__ (crew None) = "<Team id=1 name=crew>"
  /\ str_int 0 = "0"
  /\ str_int (-1203) = "-1203"
  /\ str_int 1152921504606846976 = "1152921504606846976".
Proof. repeat split. Qed.

(** The owner is looked up by [id]; of two members with the owner's [id]
    the first is returned, and an absent or unset owner gives [None]. *)
Example owner_runs :
  (team.owner (crew (Some 7%Z))).2 = inr (Some (member 7 "bob"))
  /\ (team.owner (crew (Some 9%Z))).2 = inr None
  /\ (team.owner (crew None)).2 = inr None.
Proof. repeat split. Qed.

(** A sink that is still recording refuses to format. *)
Lemma format_audio_while_recording_witness :
  (format_audio (env_child matroska 0) still_recording).2
  = inl (MKVSinkError "Audio may only be formatted after recording is finished." None).
Proof.
  destruct (format_audio_while_recording (env_child matroska 0) still_recording
              {| recording := true |} eq_refl eq_refl)
    as (msg & Hrun & Hmsg & _).
  rewrite Hrun, Hmsg. reflexivity.
Defined.

(** No ffmpeg on the machine. *)
Lemma format_audio_tool_not_found_witness :
  (format_audio (env_spawn_raises no_ffmpeg) stopped).2
  = inl (MKVSinkError "ffmpeg was not found." None)
  /\ w_audio (format_audio (env_spawn_raises no_ffmpeg) stopped).1 = w_audio stopped.
Proof.
  destruct (format_audio_tool_not_found (env_spawn_raises no_ffmpeg) stopped
              {| recording := false |}
              "[Errno 2] No such file or directory: 'ffmpeg'"
              eq_refl eq_refl eq_refl)
    as (w' & Hrun & _ & Haudio & _).
  rewrite Hrun. split; [reflexivity | exact Haudio].
Defined.

(** A conversion that goes through. *)
Lemma format_audio_success_witness :
  exists out,
    tell (set_file (w_audio stopped) {| buf := out; pos := 0; closed := false |}) "mkv"
    = inr {| file := BytesIO_new (Some matroska); attrs := ["mkv"] |}.
Proof.
  destruct (format_audio_success tt (fun _ => None) (env_child matroska 0) stopped
              (format_audio (env_child matroska 0) stopped).1 eq_refl)
    as (run & data & f & out & rc & _ & _ & _ & [Hfmt _] & _).
  exists out. exact Hfmt.
Defined.

(** A sink fresh from the constructor. *)
Lemma format_audio_unattached_witness :
  (format_audio (env_child matroska 0) unattached).2
  = inl (AttributeError "'NoneType' object has no attribute 'recording'")
  /\ w_procs (format_audio (env_child matroska 0) unattached).1 = [].
Proof.
  destruct (format_audio_unattached tt (fun _ => None) (env_child matroska 0)
              unattached eq_refl)
    as (e & Hrun & He & _).
  rewrite Hrun, He. split; reflexivity.
Defined.

(** C3.  The code at the failing input: the child writes nothing and
    exits with code 1, where the docstring announces [MKVSinkError] for a
    formatting that failed; yet [format_audio] returns normally, the audio
    object now holds an empty file and was told it is "mkv". *)
Lemma nonzero_exit_is_delivered :
  (proc_returncode <$> w_procs (format_audio (env_child [] 1) stopped).1) = [Some 1%Z]
  /\ (format_audio (env_child [] 1) stopped).2 = inr tt
  /\ w_audio (format_audio (env_child [] 1) stopped).1
     = {| file := {| buf := []; pos := 0; closed := false |}; attrs := ["mkv"] |}.
Proof. repeat split. Qed.

Lemma format_audio_ignores_exit_status_witness :
  format_audio (env_child [] 1) stopped
  = audio_on_format (env_child [] 1) "mkv" (converted stopped (child [] 1) pcm [] 1).
Proof.
  destruct (format_audio_ignores_exit_status (env_child [] 1) stopped
              {| recording := false |} eq_refl)
    as [_ Hlate].
  destruct (Hlate (child [] 1) pcm
              {| buf := pcm; pos := 8; closed := false |} [] 1%Z
              eq_refl eq_refl eq_refl eq_refl)
    as [Hrun _].
  exact Hrun.
Defined.

(** C5.  The code at the failing input: an exit with code 1 raises
    nothing at all, the call ends exactly as it does for the same output
    and code 0, so the caller is given no error to tell an abnormal exit
    by.  The return code is never read: the defect is the one of C3. *)
Lemma abnormal_exit_raises_nothing :
  (format_audio (env_child matroska 1) stopped).2 = inr tt
  /\ (format_audio (env_child matroska 1) stopped).2
     = (format_audio (env_child matroska 0) stopped).2
  /\ w_audio (format_audio (env_child matroska 1) stopped).1
     = w_audio (format_audio (env_child matroska 0) stopped).1.
Proof. repeat split. Qed.

Lemma spawn_failures_distinguishable_witness :
  exists r1 r2,
    (format_audio (env_spawn_raises no_ffmpeg) stopped).2 = inl r1
    /\ (format_audio
          (env_spawn_raises (SubprocessError "SubprocessError" "fork failed"))
          stopped).2 = inl r2
    /\ classify r1 = Some ToolNotFound
    /\ classify r2 = Some PopenFailed.
Proof.
  destruct (spawn_failures_distinguishable (env_spawn_raises no_ffmpeg) stopped
              {| recording := false |} no_ffmpeg eq_refl eq_refl eq_refl)
    as (r1 & H1 & [Hr1 Hc1] & _).
  destruct (spawn_failures_distinguishable
              (env_spawn_raises (SubprocessError "SubprocessError" "fork failed"))
              stopped {| recording := false |}
              (SubprocessError "SubprocessError" "fork failed")
              eq_refl eq_refl eq_refl)
    as (r2 & H2 & [Hr2 Hc2] & _).
  exists r1, r2. auto.
Defined.

(** C8 fails as stated: with a closed input file [audio.file.read()] raises
    after the child was started, and [format_audio] lets the exception out
    with both pipes of the child open and the child not waited for. *)
Lemma read_failure_leaves_child_unreleased :
  (format_audio (env_child matroska 0) stopped_closed_file).2
  = inl (ValueError "I/O operation on closed file.")
  /\ exists p,
       w_procs (format_audio (env_child matroska 0) stopped_closed_file).1 = [p]
       /\ proc_stdin p = PipeOpen
       /\ proc_stdout p = PipeOpen
       /\ proc_returncode p = None
       /\ released p = false.
Proof. split; [reflexivity|]. eexists. repeat split. Qed.

Lemma format_audio_releases_after_communicate_witness :
  released <$> w_procs (format_audio (env_child matroska 0) stopped).1 = [true].
Proof.
  destruct (format_audio_releases_after_communicate (env_child matroska 0) stopped
              {| recording := false |} eq_refl eq_refl)
    as [_ Hlate].
  destruct (Hlate (child matroska 0) pcm
              {| buf := pcm; pos := 8; closed := false |} matroska 0%Z
              eq_refl eq_refl eq_refl)
    as (p & Hprocs & Hrel & _).
  rewrite Hprocs. simpl. rewrite Hrel. reflexivity.
Defined.

(** ** The further statements on the sample runs *)

(** From offset 0 [communicate] is given the whole buffer. *)
Lemma format_audio_exchange_input_witness :
  proc_fed <$> w_procs (format_audio (env_child matroska 0) stopped).1 = [pcm].
Proof.
  destruct (format_audio_exchange_input (env_child matroska 0) stopped
              {| recording := false |} (child matroska 0) matroska 0%Z
              eq_refl eq_refl eq_refl eq_refl eq_refl)
    as (p & Hprocs & _ & Hwhole & _).
  rewrite Hprocs. simpl. rewrite (Hwhole eq_refl). reflexivity.
Defined.

(** An exchange that raises leaves the buffer read to its end. *)
Lemma format_audio_exchange_failure_drains_input_witness :
  (format_audio (env_exchange_raises io_error) stopped).2 = inl io_error
  /\ (8 <= pos (file (w_audio (format_audio (env_exchange_raises io_error) stopped).1)))%nat.
Proof.
  destruct (format_audio_exchange_failure_drains_input
              (env_exchange_raises io_error) stopped
              {| recording := false |} (fun _ => inl io_error) io_error
              eq_refl eq_refl eq_refl eq_refl eq_refl)
    as (Hraised & _ & _ & Hpos & _).
  split; [exact Hraised | exact Hpos].
Defined.




(** The sink error of a machine without ffmpeg is traced back to [Popen]. *)
Lemma format_audio_sink_error_origin_witness :
  w_procs (format_audio (env_spawn_raises no_ffmpeg) stopped).1 = [].
Proof.
  destruct (format_audio_sink_error_origin (env_spawn_raises no_ffmpeg) stopped
              "ffmpeg was not found." None) as (_ & _ & Hprocs).
  - intros e [= <-] m c. discriminate.
  - intros run data e [=].
  - intros a enc e [=].
  - reflexivity.
  - exact Hprocs.
Defined.

(** Teams that differ in their owner only have the same text. *)
Lemma Team_repr_determines_id_and_name_witness :
  team.id (crew (Some 7%Z)) = team.id (crew None)
  /\ team.name (crew (Some 7%Z)) = team.name (crew None).
Proof.
  apply (Team_repr_determines_id_and_name (crew (Some 7%Z)) (crew None)).
  reflexivity.
Defined.

(** A team of two with the second member as owner. *)
Lemma team_owner_unique_ids_witness :
  (team.owner (duo (Some 7%Z))).2 = inr (Some (member 7 "bob")).
Proof.
  apply (team_owner_unique_ids (duo (Some 7%Z)) (member 7 "bob")).
  - apply (bool_decide_unpack _). reflexivity.
  - split; [right; left; reflexivity | reflexivity].
Defined.
